(** * SelectField: a shallow embedding of the searchable select control

    Source: apps/frontend/src/components/customUI/form/SelectField.tsx

    The component is a React function component.  Its three [useState] cells
    are the record [ControlState]; every event handler is a function from the
    props and the state of the render that created the handler to the list
    of effects the handler performs, in program order ([Action]); [perform]
    is the meaning of one effect on the pair "component state, owner state".

    Labels and the search term, the strings the code lower-cases and
    searches, are sequences of Unicode code points ([ustring]);
    [toLowerCase] follows String.prototype.toLowerCase: the simple
    lower-case mapping of every code point, the two-code-point form of
    U+0130 and the context rule for the capital sigma U+03A3.  The character
    tables it reads belong to the JavaScript runtime and are a parameter
    ([CaseData]).  Strings that are only compared ([value], key names) are
    [string]s.  [focusedIndex] is a JavaScript number that only ever holds
    small integers; it is a [Z]. *)

From Stdlib Require Import String Ascii List ZArith Bool Lia.
Import ListNotations.

Local Open Scope string_scope.
Local Open Scope Z_scope.
Local Open Scope list_scope.

(** ** Strings *)

(** A string as the sequence of its code points. *)
Definition ustring : Type := list Z.

(** The code points of a literal of 8-bit characters. *)
Definition U (s : string) : ustring :=
  map (fun a => Z.of_nat (nat_of_ascii a)) (list_ascii_of_string s).

(** The columns of the Unicode Character Database that lower-casing reads:
    Simple_Lowercase_Mapping and the properties Cased and Case_Ignorable. *)
Record CaseData : Type := mkCaseData {
  simpleLower : Z -> Z;
  cased : Z -> bool;
  caseIgnorable : Z -> bool
}.

(** Some code points of [s], all of them case-ignorable, are followed by a
    cased one. *)
Fixpoint casedAfterIgnorable (D : CaseData) (s : ustring) : bool :=
  match s with
  | [] => false
  | c :: s' => cased D c || (caseIgnorable D c && casedAfterIgnorable D s')
  end.

(** The condition Final_Sigma of SpecialCasing.txt; [before] is the text
    before the sigma, last code point first, [after] the text after it. *)
Definition finalSigma (D : CaseData) (before after : ustring) : bool :=
  casedAfterIgnorable D before && negb (casedAfterIgnorable D after).

(** Lower-casing of [s] placed after the text [before] (last code point
    first): U+03A3 gives U+03C2 in final position, U+0130 gives U+0069
    U+0307, every other code point its simple mapping. *)
Fixpoint lowerFrom (D : CaseData) (before s : ustring) : ustring :=
  match s with
  | [] => []
  | c :: s' =>
      (if (c =? 931) && finalSigma D before s' then [962]
       else if c =? 304 then [105; 775]
       else [simpleLower D c])
      ++ lowerFrom D (c :: before) s'
  end.

(** [s.toLowerCase()] *)
Definition toLowerCase (D : CaseData) (s : ustring) : ustring :=
  lowerFrom D [] s.

(** [s.startsWith(t)] *)
Fixpoint startsWith (s t : ustring) : bool :=
  match t, s with
  | [], _ => true
  | _ :: _, [] => false
  | a :: t', b :: s' => (a =? b) && startsWith s' t'
  end.

(** [s.includes(t)]: [t] occurs in [s] as a contiguous block. *)
Fixpoint includes (s t : ustring) : bool :=
  if startsWith s t then true
  else match s with
       | [] => false
       | _ :: s' => includes s' t
       end.

(** ** Data model *)

(** [interface SelectOption]; [disabled?: boolean] may be absent. *)
Record SelectOption : Type := mkOption {
  value : string;
  label : ustring;
  disabled : option bool
}.

(** Truthiness of an optional boolean, as in [if (option.disabled)]. *)
Definition truthy (b : option bool) : bool :=
  match b with
  | Some true => true
  | _ => false
  end.

(** The three [useState] cells of the component. *)
Record ControlState : Type := mkState {
  isOpen : bool;
  searchTerm : ustring;
  focusedIndex : Z
}.

(** [useState(false)], [useState("")], [useState(-1)] *)
Definition initialState : ControlState := mkState false [] (-1).

Section Component.

(** The state of the owning component, which only [onChange] can touch. *)
Variable W : Type.

(** The character tables of the runtime. *)
Variable D : CaseData.

(** The props that take part in behaviour, after the defaults of the
    destructuring pattern ([searchable = false], [disabled = false]). *)
Record SelectFieldProps : Type := mkProps {
  options : list SelectOption;
  props_value : option string;
  onChange : option (string -> W -> W);
  searchable : bool;
  props_disabled : bool
}.

(** [options.find((option) => option.value === value)] *)
Definition selectedOption (P : SelectFieldProps) : option SelectOption :=
  match props_value P with
  | Some v => find (fun o => String.eqb (value o) v) (options P)
  | None => None
  end.

(** Lines 50-56. *)
Definition filteredOptions (P : SelectFieldProps) (s : ControlState)
  : list SelectOption :=
  if searchable P
  then filter (fun o =>
                 includes (toLowerCase D (label o))
                   (toLowerCase D (searchTerm s))
                 && negb (truthy (disabled o)))
              (options P)
  else filter (fun o => negb (truthy (disabled o))) (options P).

(** ** Effects *)

Inductive Action : Type :=
| PreventDefault
| CallOnChange (v : string)
| SetIsOpen (b : bool)
| SetSearchTerm (t : ustring)
| SetFocusedIndex (i : Z)
| UpdateFocusedIndex (f : Z -> Z).

Definition Config : Type := (ControlState * W)%type.

(** [onChange?.(v)]: the call happens only when the prop is supplied. *)
Definition notify (P : SelectFieldProps) (v : string) (w : W) : W :=
  match onChange P with
  | Some f => f v w
  | None => w
  end.

Definition perform (P : SelectFieldProps) (c : Config) (a : Action) : Config :=
  let (s, w) := c in
  match a with
  | PreventDefault => (s, w)
  | CallOnChange v => (s, notify P v w)
  | SetIsOpen b => (mkState b (searchTerm s) (focusedIndex s), w)
  | SetSearchTerm t => (mkState (isOpen s) t (focusedIndex s), w)
  | SetFocusedIndex i => (mkState (isOpen s) (searchTerm s) i, w)
  | UpdateFocusedIndex f =>
      (mkState (isOpen s) (searchTerm s) (f (focusedIndex s)), w)
  end.

Definition performAll (P : SelectFieldProps) (acts : list Action) (c : Config)
  : Config :=
  fold_left (perform P) acts c.

(** ** Handlers *)

(** Lines 59-68.  [hasContainer] is [containerRef.current] being set,
    [inside] is [containerRef.current.contains(event.target)]. *)
Definition handleClickOutside (hasContainer inside : bool) : list Action :=
  if hasContainer && negb inside
  then [SetIsOpen false; SetSearchTerm []; SetFocusedIndex (-1)]
  else [].

(** Lines 81-87. *)
Definition handleSelect (o : SelectOption) : list Action :=
  if truthy (disabled o) then []
  else [CallOnChange (value o); SetIsOpen false; SetSearchTerm [];
        SetFocusedIndex (-1)].

(** Lines 89-123.  The array read [filteredOptions[focusedIndex]] is guarded
    by the bounds test, so the [None] branch is never taken. *)
Definition handleKeyDown (P : SelectFieldProps) (s : ControlState)
  (key : string) : list Action :=
  let len := Z.of_nat (length (filteredOptions P s)) in
  if negb (isOpen s) then
    if String.eqb key "Enter" || String.eqb key " "
    then [PreventDefault; SetIsOpen true]
    else []
  else if String.eqb key "ArrowDown" then
    [PreventDefault;
     UpdateFocusedIndex (fun prev => if prev <? len - 1 then prev + 1 else 0)]
  else if String.eqb key "ArrowUp" then
    [PreventDefault;
     UpdateFocusedIndex (fun prev => if prev >? 0 then prev - 1 else len - 1)]
  else if String.eqb key "Enter" then
    PreventDefault ::
    (if (focusedIndex s >=? 0) && (focusedIndex s <? len)
     then match nth_error (filteredOptions P s) (Z.to_nat (focusedIndex s)) with
          | Some o => handleSelect o
          | None => []
          end
     else [])
  else if String.eqb key "Escape" then
    [SetIsOpen false; SetSearchTerm []; SetFocusedIndex (-1)]
  else [].

(** Line 137: [onClick={() => !disabled && setIsOpen(!isOpen)}] *)
Definition handleToggle (P : SelectFieldProps) (s : ControlState)
  : list Action :=
  if negb (props_disabled P) then [SetIsOpen (negb (isOpen s))] else [].

(** Line 176: [onChange={(e) => setSearchTerm(e.target.value)}] *)
Definition handleSearchChange (text : ustring) : list Action :=
  [SetSearchTerm text].

(** Line 195: [onMouseEnter={() => setFocusedIndex(index)}] *)
Definition handleMouseEnter (index : nat) : list Action :=
  [SetFocusedIndex (Z.of_nat index)].

(** ** Events

    What the rendered tree can receive.  The toggle button carries
    [disabled={disabled}], so React delivers it no click while the control is
    disabled; its [onKeyDown] is [handleKeyDown] as it stands, which does not
    look at [disabled].  The search input exists only when the panel is open
    and [searchable] holds; a row exists only when the panel is open, one per
    element of [filteredOptions]. *)
Inductive Event : Type :=
| ButtonClick
| ButtonKeyDown (key : string)
| SearchChange (text : ustring)
| RowClick (index : nat)
| RowMouseEnter (index : nat)
| DocumentMouseDown (inside : bool).

Definition dispatch (P : SelectFieldProps) (s : ControlState) (e : Event)
  : list Action :=
  match e with
  | ButtonClick => if props_disabled P then [] else handleToggle P s
  | ButtonKeyDown key => handleKeyDown P s key
  | SearchChange text =>
      if isOpen s && searchable P then handleSearchChange text else []
  | RowClick index =>
      if isOpen s
      then match nth_error (filteredOptions P s) index with
           | Some o => handleSelect o
           | None => []
           end
      else []
  | RowMouseEnter index =>
      if isOpen s
      then match nth_error (filteredOptions P s) index with
           | Some _ => handleMouseEnter index
           | None => []
           end
      else []
  | DocumentMouseDown inside => handleClickOutside true inside
  end.

Definition step (P : SelectFieldProps) (e : Event) (c : Config) : Config :=
  performAll P (dispatch P (fst c) e) c.

Definition run (P : SelectFieldProps) (tr : list Event) (c : Config) : Config :=
  fold_left (fun c e => step P e c) tr c.

(** A key press handled by [handleKeyDown], and a call of [handleSelect],
    run to completion from a configuration. *)
Definition keyDown (P : SelectFieldProps) (key : string) (c : Config) : Config :=
  performAll P (handleKeyDown P (fst c) key) c.

Definition select (P : SelectFieldProps) (o : SelectOption) (c : Config)
  : Config :=
  performAll P (handleSelect o) c.

(** ** Properties of configurations and traces *)

(** [focusedIndex] is -1 or an index into the list filtered now. *)
Definition focus_valid (P : SelectFieldProps) (s : ControlState) : Prop :=
  focusedIndex s = -1 \/
  0 <= focusedIndex s < Z.of_nat (length (filteredOptions P s)).

(** Events that cannot leave [focusedIndex] past the filtered list: all
    but ArrowDown over an open, empty list and a new search term whose
    filtered list stops at or before [focusedIndex]. *)
Definition safe_event (P : SelectFieldProps) (s : ControlState) (e : Event)
  : bool :=
  match e with
  | ButtonKeyDown key =>
      if String.eqb key "ArrowDown"
      then negb (isOpen s) || negb (length (filteredOptions P s) =? 0)%nat
      else true
  | SearchChange text =>
      focusedIndex s <?
      Z.of_nat (length (filteredOptions P
                          (mkState (isOpen s) text (focusedIndex s))))
  | _ => true
  end.

Fixpoint safe_trace (P : SelectFieldProps) (tr : list Event) (c : Config)
  : bool :=
  match tr with
  | [] => true
  | e :: tr' => safe_event P (fst c) e && safe_trace P tr' (step P e c)
  end.

(** No click on the toggle button lands on an open panel. *)
Fixpoint toggle_free (P : SelectFieldProps) (tr : list Event) (c : Config)
  : bool :=
  match tr with
  | [] => true
  | e :: tr' =>
      match e with
      | ButtonClick => negb (isOpen (fst c))
      | _ => true
      end && toggle_free P tr' (step P e c)
  end.

(** The event [e], received in state [s], is a selection commit of [o]:
    a click on the row of [o], or Enter with [o] under a valid
    [focusedIndex]. *)
Inductive Commits (P : SelectFieldProps) (s : ControlState)
  : Event -> SelectOption -> Prop :=
| commit_click (i : nat) (o : SelectOption) :
    isOpen s = true ->
    nth_error (filteredOptions P s) i = Some o ->
    Commits P s (RowClick i) o
| commit_enter (o : SelectOption) :
    isOpen s = true ->
    0 <= focusedIndex s < Z.of_nat (length (filteredOptions P s)) ->
    nth_error (filteredOptions P s) (Z.to_nat (focusedIndex s)) = Some o ->
    Commits P s (ButtonKeyDown "Enter") o.

(** The state changes an event can cause, read off the handlers: nothing,
    the full reset, the toggle, opening by key, the two arrow updates, a new
    search term, and focus by hover. *)
Inductive Transition (P : SelectFieldProps) (s : ControlState)
  : Event -> ControlState -> Prop :=
| T_stay (e : Event) : Transition P s e s
| T_reset (e : Event) : Transition P s e (mkState false [] (-1))
| T_toggle :
    props_disabled P = false ->
    Transition P s ButtonClick
      (mkState (negb (isOpen s)) (searchTerm s) (focusedIndex s))
| T_open (key : string) :
    isOpen s = false ->
    Transition P s (ButtonKeyDown key)
      (mkState true (searchTerm s) (focusedIndex s))
| T_down :
    isOpen s = true ->
    Transition P s (ButtonKeyDown "ArrowDown")
      (mkState true (searchTerm s)
         (if focusedIndex s <? Z.of_nat (length (filteredOptions P s)) - 1
          then focusedIndex s + 1 else 0))
| T_up :
    isOpen s = true ->
    Transition P s (ButtonKeyDown "ArrowUp")
      (mkState true (searchTerm s)
         (if focusedIndex s >? 0
          then focusedIndex s - 1
          else Z.of_nat (length (filteredOptions P s)) - 1))
| T_search (text : ustring) :
    isOpen s = true ->
    Transition P s (SearchChange text) (mkState true text (focusedIndex s))
| T_hover (i : nat) :
    isOpen s = true ->
    (i < length (filteredOptions P s))%nat ->
    Transition P s (RowMouseEnter i)
      (mkState true (searchTerm s) (Z.of_nat i)).

End Component.

Arguments options {W} _.
Arguments props_value {W} _.
Arguments onChange {W} _.
Arguments searchable {W} _.
Arguments props_disabled {W} _.
Arguments mkProps {W} _ _ _ _ _.
Arguments selectedOption {W} _.
Arguments filteredOptions {W} _ _ _.
Arguments perform {W} _ _ _.
Arguments performAll {W} _ _ _.
Arguments handleKeyDown {W} _ _ _ _.
Arguments handleToggle {W} _ _.
Arguments dispatch {W} _ _ _ _.
Arguments step {W} _ _ _ _.
Arguments run {W} _ _ _ _.
Arguments notify {W} _ _ _.
Arguments keyDown {W} _ _ _ _.
Arguments select {W} _ _ _.
Arguments focus_valid {W} _ _ _.
Arguments safe_event {W} _ _ _ _.
Arguments safe_trace {W} _ _ _ _.
Arguments toggle_free {W} _ _ _ _.
Arguments Commits {W} _ _ _ _ _.
Arguments Transition {W} _ _ _ _ _.

(** ** Sample data *)

Definition apple : SelectOption := mkOption "a" (U "Apple") None.
Definition banana : SelectOption := mkOption "b" (U "Banana") (Some true).
Definition cherry : SelectOption := mkOption "c" (U "Cherry") None.

(** An owner that records every value [onChange] hands it. *)
Definition recorder (v : string) (log : list string) : list string :=
  (log ++ [v])%list.

Definition fruitProps (srch : bool) : SelectFieldProps (list string) :=
  mkProps [apple; banana; cherry] None (Some recorder) srch false.

Definition noOptionProps : SelectFieldProps (list string) :=
  mkProps [] None (Some recorder) false false.

(** An extract of the Unicode tables: the rows of Basic Latin (U+0000 to
    U+007F) and of the Greek letters U+0391 to U+03A9 and U+03B1 to U+03C9.
    Every other code point is entered as caseless, so the extract stands for
    the runtime's tables on strings over those rows only. *)
Definition latinGreek : CaseData :=
  mkCaseData
    (fun c =>
       if (65 <=? c) && (c <=? 90) then c + 32
       else if (913 <=? c) && (c <=? 937) && negb (c =? 930) then c + 32
       else c)
    (fun c =>
       ((65 <=? c) && (c <=? 90)) || ((97 <=? c) && (c <=? 122))
       || ((913 <=? c) && (c <=? 937) && negb (c =? 930))
       || ((945 <=? c) && (c <=? 969)))
    (fun c =>
       (c =? 39) || (c =? 46) || (c =? 58) || (c =? 94) || (c =? 96)).

(** The label capital alpha, capital sigma, capital alpha (U+0391 U+03A3
    U+0391) and the search term capital alpha, capital sigma. *)
Definition asaOption : SelectOption := mkOption "s" [913; 931; 913] None.

Definition asaProps : SelectFieldProps (list string) :=
  mkProps [asaOption] None (Some recorder) true false.

Definition asTerm : ustring := [913; 931].

(** ** What is rendered

    The parts of the returned tree that depend on props and state: the text
    of the toggle button (line 156) and the rows of the open panel (lines
    190-211), each with its index, its focus highlight
    [focusedIndex === index] and its selection mark
    [option.value === value]. *)

Definition buttonText {W : Type} (P : SelectFieldProps W)
  (placeholder : ustring) : ustring :=
  match selectedOption P with
  | Some o => label o
  | None => placeholder
  end.

(** [option.value === value]; [value] may be undefined. *)
Definition isSelected {W : Type} (P : SelectFieldProps W) (o : SelectOption)
  : bool :=
  match props_value P with
  | Some v => String.eqb (value o) v
  | None => false
  end.

Record RowView : Type := mkRow {
  row_option : SelectOption;
  row_index : nat;
  row_focused : bool;
  row_selected : bool
}.

(** [l.map((option, index) => ...)], counting from [index]. *)
Fixpoint rowsFrom {W : Type} (P : SelectFieldProps W) (s : ControlState)
  (index : nat) (l : list SelectOption) : list RowView :=
  match l with
  | [] => []
  | o :: l' =>
      mkRow o index (focusedIndex s =? Z.of_nat index) (isSelected P o)
      :: rowsFrom P s (S index) l'
  end.

Definition rows {W : Type} (D : CaseData) (P : SelectFieldProps W)
  (s : ControlState) : list RowView :=
  rowsFrom P s 0 (filteredOptions D P s).

(** The values handed to [onChange] by a list of effects, in order. *)
Fixpoint calls (acts : list Action) : list string :=
  match acts with
  | [] => []
  | CallOnChange v :: acts' => v :: calls acts'
  | _ :: acts' => calls acts'
  end.

(** The owner's state after [onChange?.(v)] for each [v] of a list. *)
Definition notifyAll {W : Type} (P : SelectFieldProps W) (vs : list string)
  (w : W) : W :=
  fold_left (fun w v => notify P v w) vs w.

(** No event of the trace is a key press. *)
Definition pointer_only (tr : list Event) : bool :=
  forallb (fun e => match e with ButtonKeyDown _ => false | _ => true end) tr.

(** What a closed control does with an event, read off the handlers: the
    toggle click opens it unless the control is disabled, Enter and Space
    open it, an outside press resets it, nothing else changes it. *)
Definition closedStep {W : Type} (P : SelectFieldProps W) (s : ControlState)
  (e : Event) : ControlState :=
  let opened := mkState true (searchTerm s) (focusedIndex s) in
  match e with
  | ButtonClick => if props_disabled P then s else opened
  | ButtonKeyDown key =>
      if String.eqb key "Enter" || String.eqb key " " then opened else s
  | DocumentMouseDown false => mkState false [] (-1)
  | _ => s
  end.

(** ** The visible set as the specification words it *)

(** The lower-cased label contains the lower-cased term as a contiguous
    block: the test the code makes. *)
Definition lower_contains (D : CaseData) (lbl t : ustring) : Prop :=
  exists pre post, toLowerCase D lbl = pre ++ toLowerCase D t ++ post.






(** Strings without U+03A3 and U+0130, the two code points that
    [toLowerCase] does not map one by one. *)
Definition plain (s : ustring) : bool :=
  forallb (fun c => negb ((c =? 931) || (c =? 304))) s.




(** An option is visible when it is not disabled and, with search enabled,
    its lower-cased label contains the lower-cased search term. *)
Definition visible (D : CaseData) (srch : bool) (term : ustring)
  (o : SelectOption) : Prop :=
  disabled o <> Some true /\ (srch = true -> lower_contains D (label o) term).

(** ** Facts about strings *)

Lemma startsWith_iff_app (s t : ustring) :
  startsWith s t = true <-> exists post, s = t ++ post.
Proof.
  revert s; induction t as [|a t IH]; intros s.
  - destruct s; simpl; split; eauto.
  - destruct s as [|b s]; simpl.
    + split; [discriminate | intros [post H]; discriminate].
    + rewrite andb_true_iff, Z.eqb_eq, IH.
      split.
      * intros [-> [post ->]]. now exists post.
      * intros [post H]. injection H as -> ->. eauto.
Qed.

Lemma includes_iff_app (s t : ustring) :
  includes s t = true <-> exists pre post, s = pre ++ t ++ post.
Proof.
  induction s as [|c s IH]; cbn [includes];
    destruct (startsWith _ t) eqn:Hp.
  - split; [intros _ | reflexivity].
    apply startsWith_iff_app in Hp. destruct Hp as [post Hp].
    now exists [], post.
  - split; [discriminate | intros (pre & post & H)].
    destruct pre as [|a pre]; [|discriminate].
    assert (startsWith [] t = true) by (apply startsWith_iff_app; eauto).
    congruence.
  - split; [intros _ | reflexivity].
    apply startsWith_iff_app in Hp. destruct Hp as [post Hp].
    now exists [], post.
  - rewrite IH. split; intros (pre & post & H).
    + exists (c :: pre), post. simpl. now rewrite H.
    + destruct pre as [|a pre].
      * assert (startsWith (c :: s) t = true)
          by (apply startsWith_iff_app; eauto).
        congruence.
      * exists pre, post. simpl in H. now injection H.
Qed.

Lemma includes_empty (s : ustring) : includes s [] = true.
Proof. destruct s; reflexivity. Qed.

Lemma includes_trans (s t u : ustring) :
  includes s t = true -> includes t u = true -> includes s u = true.
Proof.
  rewrite !includes_iff_app.
  intros (p1 & q1 & ->) (p2 & q2 & ->).
  exists (p1 ++ p2), (q2 ++ q1).
  now rewrite <- !app_assoc.
Qed.

(** Away from U+03A3 and U+0130 lower-casing is code point by code point. *)
Lemma lowerFrom_plain (D : CaseData) (before s : ustring) :
  plain s = true -> lowerFrom D before s = map (simpleLower D) s.
Proof.
  revert before. induction s as [|c s IH]; intros before Hp; [reflexivity|].
  simpl in Hp. apply andb_true_iff in Hp. destruct Hp as [Hc Hs].
  apply negb_true_iff, orb_false_iff in Hc. destruct Hc as [H1 H2].
  simpl. rewrite H1, H2. simpl. now rewrite IH.
Qed.

Lemma toLowerCase_plain (D : CaseData) (s : ustring) :
  plain s = true -> toLowerCase D s = map (simpleLower D) s.
Proof. apply lowerFrom_plain. Qed.

Lemma plain_app (a b : ustring) : plain (a ++ b) = plain a && plain b.
Proof. apply forallb_app. Qed.










Lemma truthy_false_iff (b : option bool) :
  negb (truthy b) = true <-> b <> Some true.
Proof. destruct b as [[|]|]; simpl; split; congruence. Qed.

(** ** The filtered list *)

Section Filtered.
Context {W : Type} {D : CaseData}.
Implicit Types (P : SelectFieldProps W) (s : ControlState).

Lemma filteredOptions_In P s o :
  In o (filteredOptions D P s) <->
  In o (options P) /\ visible D (searchable P) (searchTerm s) o.
Proof.
  unfold filteredOptions, visible, lower_contains.
  destruct (searchable P); rewrite filter_In.
  - rewrite andb_true_iff, includes_iff_app, truthy_false_iff. tauto.
  - rewrite truthy_false_iff. intuition discriminate.
Qed.

Lemma filteredOptions_enabled P s o :
  In o (filteredOptions D P s) -> truthy (disabled o) = false.
Proof.
  intros H. apply filteredOptions_In in H. destruct H as [_ [H _]].
  destruct (disabled o) as [[|]|]; simpl; congruence.
Qed.


End Filtered.




(** C3 as stated fails: with the search term "an" the option Apple is not
    in the visible set, so that set is not the single option Apple. *)
Lemma scenario_an_not_apple :
  filteredOptions latinGreek (fruitProps true) (mkState true (U "an") (-1)) <> [apple].
Proof. vm_compute. discriminate. Qed.

(** C3, amended.  For the options Apple, Banana (disabled) and Cherry with
    [searchable] set and the search term "an", the visible set is empty:
    Banana contains "an" but is disabled, Apple and Cherry do not contain
    it. *)
Theorem scenario_an_empty :
  filteredOptions latinGreek (fruitProps true) (mkState true (U "an") (-1)) = []
  /\ includes (toLowerCase latinGreek (label banana))
       (toLowerCase latinGreek (U "an")) = true
  /\ truthy (disabled banana) = true
  /\ includes (toLowerCase latinGreek (label apple))
       (toLowerCase latinGreek (U "an")) = false
  /\ includes (toLowerCase latinGreek (label cherry))
       (toLowerCase latinGreek (U "an")) = false.
Proof. vm_compute. repeat split. Qed.

(** The match ignores case and an empty search term keeps every enabled
    option. *)
Example filtered_upper_AP :
  filteredOptions latinGreek (fruitProps true) (mkState true (U "AP") (-1)) = [apple].
Proof. reflexivity. Qed.

Example filtered_empty_term :
  filteredOptions latinGreek (fruitProps true) (mkState true [] (-1)) = [apple; cherry].
Proof. reflexivity. Qed.

Example filtered_not_searchable :
  filteredOptions latinGreek (fruitProps false) (mkState true (U "zz") (-1))
  = [apple; cherry].
Proof. reflexivity. Qed.

(** ** Running handlers *)

Ltac zcases :=
  rewrite ?Z.geb_leb, ?Z.gtb_ltb in *;
  repeat (match goal with
          | |- context [Z.ltb ?a ?b] => destruct (Z.ltb_spec a b)
          | |- context [Z.leb ?a ?b] => destruct (Z.leb_spec a b)
          | |- context [Z.eqb ?a ?b] => destruct (Z.eqb_spec a b)
          end; cbv iota).

Section Handlers.
Context {W : Type} {D : CaseData}.
Implicit Types (P : SelectFieldProps W) (s : ControlState) (w : W).

Lemma filteredOptions_searchTerm P s b i :
  filteredOptions D P (mkState b (searchTerm s) i) = filteredOptions D P s.
Proof. reflexivity. Qed.

Lemma nth_error_in_bounds (l : list SelectOption) (i : Z) :
  0 <= i < Z.of_nat (length l) ->
  exists o, nth_error l (Z.to_nat i) = Some o.
Proof.
  intros Hi. destruct (nth_error l (Z.to_nat i)) as [o|] eqn:E; [eauto|].
  apply nth_error_None in E. lia.
Qed.

Lemma select_enabled P o s w :
  truthy (disabled o) = false ->
  select P o (s, w) = (mkState false [] (-1), notify P (value o) w).
Proof. intros H. unfold select, handleSelect. now rewrite H. Qed.

Lemma select_disabled P o (c : Config W) :
  truthy (disabled o) = true -> select P o c = c.
Proof. intros H. unfold select, handleSelect. now rewrite H. Qed.

(** Effects other than [CallOnChange] leave the owner alone. *)
Lemma performAll_owner P (acts : list Action) (c : Config W) :
  (forall v, ~ In (CallOnChange v) acts) ->
  snd (performAll P acts c) = snd c.
Proof.
  unfold performAll. revert c. induction acts as [|a acts IH]; intros c H.
  - reflexivity.
  - simpl. rewrite IH.
    + destruct c as [s w], a; simpl; try reflexivity.
      exfalso. apply (H v). now left.
    + intros v Hv. apply (H v). now right.
Qed.

Lemma keyDown_ArrowDown P s w :
  isOpen s = true ->
  keyDown D P "ArrowDown" (s, w) =
  (mkState true (searchTerm s)
     (if focusedIndex s <? Z.of_nat (length (filteredOptions D P s)) - 1
      then focusedIndex s + 1 else 0), w).
Proof.
  intros Ho. destruct s as [b t i]. simpl in Ho. subst b. reflexivity.
Qed.

Lemma keyDown_ArrowUp P s w :
  isOpen s = true ->
  keyDown D P "ArrowUp" (s, w) =
  (mkState true (searchTerm s)
     (if focusedIndex s >? 0
      then focusedIndex s - 1
      else Z.of_nat (length (filteredOptions D P s)) - 1), w).
Proof.
  intros Ho. destruct s as [b t i]. simpl in Ho. subst b. reflexivity.
Qed.

Lemma keyDown_Escape P s w :
  isOpen s = true ->
  keyDown D P "Escape" (s, w) = (mkState false [] (-1), w).
Proof.
  intros Ho. destruct s as [b t i]. simpl in Ho. subst b. reflexivity.
Qed.

Lemma keyDown_closed P s w key :
  isOpen s = false ->
  keyDown D P key (s, w) =
  if String.eqb key "Enter" || String.eqb key " "
  then (mkState true (searchTerm s) (focusedIndex s), w)
  else (s, w).
Proof.
  intros Hc. destruct s as [b t i]. simpl in Hc. subst b.
  unfold keyDown, handleKeyDown. simpl.
  destruct (String.eqb key "Enter" || String.eqb key " "); reflexivity.
Qed.

Lemma keyDown_Enter_open P s w :
  isOpen s = true ->
  keyDown D P "Enter" (s, w) =
  if (0 <=? focusedIndex s)
     && (focusedIndex s <? Z.of_nat (length (filteredOptions D P s)))
  then match nth_error (filteredOptions D P s) (Z.to_nat (focusedIndex s)) with
       | Some o => select P o (s, w)
       | None => (s, w)
       end
  else (s, w).
Proof.
  intros Ho. destruct s as [b t i]. simpl in Ho. subst b.
  unfold keyDown, handleKeyDown, select. simpl.
  rewrite Z.geb_leb.
  set (l := filteredOptions D P (mkState true t i)).
  destruct ((0 <=? i) && (i <? Z.of_nat (length l))); [|reflexivity].
  destruct (nth_error l (Z.to_nat i)); reflexivity.
Qed.

End Handlers.

(** ** Keyboard navigation *)

(** C4.  While the panel is open over a filtered list of size n > 0 and
    [focusedIndex] is one of its indices: ArrowDown moves the last index to 0
    and any other index one up, ArrowUp moves index 0 to n-1 and any other
    index one down.  Both are the shifts by one modulo n, and each undoes the
    other. *)
Theorem arrow_navigation_cyclic :
  forall (W : Type) (D : CaseData) (P : SelectFieldProps W) (s : ControlState) (w : W),
    let n := Z.of_nat (length (filteredOptions D P s)) in
    isOpen s = true ->
    0 < n ->
    0 <= focusedIndex s < n ->
    let down := keyDown D P "ArrowDown" (s, w) in
    let up := keyDown D P "ArrowUp" (s, w) in
    focusedIndex (fst down)
    = (if focusedIndex s =? n - 1 then 0 else focusedIndex s + 1)
    /\ focusedIndex (fst up)
       = (if focusedIndex s =? 0 then n - 1 else focusedIndex s - 1)
    /\ focusedIndex (fst down) = (focusedIndex s + 1) mod n
    /\ focusedIndex (fst up) = (focusedIndex s - 1) mod n
    /\ focusedIndex (fst (keyDown D P "ArrowUp" down)) = focusedIndex s
    /\ focusedIndex (fst (keyDown D P "ArrowDown" up)) = focusedIndex s.
Proof.
  intros W D P s w n Ho Hn Hi down up. subst down up.
  rewrite keyDown_ArrowDown, keyDown_ArrowUp by assumption.
  rewrite keyDown_ArrowDown, keyDown_ArrowUp by reflexivity.
  rewrite !filteredOptions_searchTerm. fold n. simpl. clearbody n.
  repeat split.
  - zcases; lia.
  - zcases; lia.
  - destruct (Z.ltb_spec (focusedIndex s) (n - 1)).
    + rewrite Z.mod_small; lia.
    + replace (focusedIndex s + 1) with n by lia.
      now rewrite Z_mod_same_full.
  - rewrite Z.gtb_ltb. destruct (Z.ltb_spec 0 (focusedIndex s)).
    + rewrite Z.mod_small; lia.
    + apply Z.mod_unique_pos with (q := -1); lia.
  - rewrite Z.gtb_ltb.
    destruct (Z.ltb_spec (focusedIndex s) (n - 1));
      [destruct (Z.ltb_spec 0 (focusedIndex s + 1))
      |destruct (Z.ltb_spec 0 0)]; lia.
  - rewrite Z.gtb_ltb.
    destruct (Z.ltb_spec 0 (focusedIndex s));
      [destruct (Z.ltb_spec (focusedIndex s - 1) (n - 1))
      |destruct (Z.ltb_spec (n - 1) (n - 1))]; lia.
Qed.

Lemma arrow_navigation_cyclic_witness :
  focusedIndex
    (fst (keyDown latinGreek (fruitProps false) "ArrowDown" (mkState true [] 1, [])))
  = 0
  /\ focusedIndex
       (fst (keyDown latinGreek (fruitProps false) "ArrowUp" (mkState true [] 1, [])))
     = 0.
Proof.
  destruct (arrow_navigation_cyclic (list string) latinGreek (fruitProps false)
              (mkState true [] 1) []) as (Hd & Hu & _).
  - reflexivity.
  - vm_compute. reflexivity.
  - vm_compute. split; [discriminate | reflexivity].
  - split; [exact Hd | exact Hu].
Defined.

(** C10.  While the panel is open and no row is focused ([focusedIndex] is
    -1): over a non-empty filtered list ArrowDown focuses index 0 and ArrowUp
    the last index; over an empty filtered list ArrowDown sets [focusedIndex]
    to 0 and ArrowUp leaves it at -1. *)
Theorem arrows_from_no_focus :
  forall (W : Type) (D : CaseData) (P : SelectFieldProps W) (s : ControlState) (w : W),
    let n := Z.of_nat (length (filteredOptions D P s)) in
    isOpen s = true ->
    focusedIndex s = -1 ->
    (0 < n ->
     focusedIndex (fst (keyDown D P "ArrowDown" (s, w))) = 0 /\
     focusedIndex (fst (keyDown D P "ArrowUp" (s, w))) = n - 1)
    /\ (n = 0 ->
        focusedIndex (fst (keyDown D P "ArrowDown" (s, w))) = 0 /\
        focusedIndex (fst (keyDown D P "ArrowUp" (s, w))) = -1).
Proof.
  intros W D P s w n Ho Hf.
  rewrite keyDown_ArrowDown, keyDown_ArrowUp by assumption.
  fold n. simpl. rewrite Hf. clearbody n.
  split; intros Hn; split; zcases; lia.
Qed.

Lemma arrows_from_no_focus_witness :
  (focusedIndex
     (fst (keyDown latinGreek (fruitProps false) "ArrowDown" (mkState true [] (-1), [])))
   = 0 /\
   focusedIndex
     (fst (keyDown latinGreek (fruitProps false) "ArrowUp" (mkState true [] (-1), [])))
   = 2 - 1)
  /\
  (focusedIndex
     (fst (keyDown latinGreek noOptionProps "ArrowDown" (mkState true [] (-1), [])))
   = 0 /\
   focusedIndex
     (fst (keyDown latinGreek noOptionProps "ArrowUp" (mkState true [] (-1), [])))
   = -1).
Proof.
  split.
  - apply (arrows_from_no_focus (list string) latinGreek (fruitProps false)
             (mkState true [] (-1)) []); reflexivity.
  - apply (arrows_from_no_focus (list string) latinGreek noOptionProps
             (mkState true [] (-1)) []); reflexivity.
Defined.

(** ** Closing paths *)

(** C6.  [handleSelect] on a disabled option does nothing: it performs no
    effect at all, so [onChange] is not called and neither the three state
    cells nor the owner's state change. *)
Theorem select_disabled_noop :
  forall (W : Type) (P : SelectFieldProps W) (o : SelectOption)
         (c : Config W),
    disabled o = Some true ->
    handleSelect o = [] /\ select P o c = c.
Proof.
  intros W P o c Hd. unfold select, handleSelect. rewrite Hd. split; reflexivity.
Qed.

Lemma select_disabled_noop_witness :
  handleSelect banana = [] /\
  select (fruitProps true) banana (mkState true (U "an") 0, ["a"])
  = (mkState true (U "an") 0, ["a"]).
Proof.
  apply (select_disabled_noop (list string) (fruitProps true) banana).
  reflexivity.
Defined.

(** C7.  From every state, a pointer press outside the container, and the
    Escape key while the panel is open, perform exactly the three resets
    (panel closed, search term empty, [focusedIndex] -1); [onChange] is not
    among the effects and the owner's state is unchanged. *)
Theorem outside_press_and_escape_reset :
  forall (W : Type) (D : CaseData) (P : SelectFieldProps W) (s : ControlState) (w : W),
    (handleClickOutside true false
     = [SetIsOpen false; SetSearchTerm []; SetFocusedIndex (-1)]
     /\ step D P (DocumentMouseDown false) (s, w) = (mkState false [] (-1), w))
    /\ (isOpen s = true ->
        handleKeyDown D P s "Escape"
        = [SetIsOpen false; SetSearchTerm []; SetFocusedIndex (-1)]
        /\ keyDown D P "Escape" (s, w) = (mkState false [] (-1), w)).
Proof.
  intros W D P s w. split; [split; reflexivity|].
  intros Ho. split; [|now apply keyDown_Escape].
  unfold handleKeyDown. rewrite Ho. reflexivity.
Qed.

Lemma outside_press_and_escape_reset_witness :
  handleKeyDown latinGreek (fruitProps true) (mkState true (U "ch") 0) "Escape"
  = [SetIsOpen false; SetSearchTerm []; SetFocusedIndex (-1)]
  /\ keyDown latinGreek (fruitProps true) "Escape" (mkState true (U "ch") 0, ["a"])
     = (mkState false [] (-1), ["a"]).
Proof.
  apply (outside_press_and_escape_reset (list string) latinGreek (fruitProps true)
           (mkState true (U "ch") 0) ["a"]).
  reflexivity.
Defined.

(** C9.  A click on the toggle button of an enabled control whose panel is
    open only closes the panel: [searchTerm] and [focusedIndex] keep their
    values (and the owner's state is untouched). *)
Theorem toggle_close_keeps_search_and_focus :
  forall (W : Type) (D : CaseData) (P : SelectFieldProps W) (s : ControlState) (w : W),
    isOpen s = true ->
    props_disabled P = false ->
    handleToggle P s = [SetIsOpen false]
    /\ step D P ButtonClick (s, w)
       = (mkState false (searchTerm s) (focusedIndex s), w).
Proof.
  intros W D P s w Ho Hd. unfold step, dispatch, handleToggle.
  rewrite Hd. simpl. rewrite Ho. split; reflexivity.
Qed.

Lemma toggle_close_keeps_search_and_focus_witness :
  handleToggle (fruitProps true) (mkState true (U "ch") 0) = [SetIsOpen false]
  /\ step latinGreek (fruitProps true) ButtonClick (mkState true (U "ch") 0, [])
     = (mkState false (U "ch") 0, []).
Proof.
  apply (toggle_close_keeps_search_and_focus (list string) latinGreek (fruitProps true)
           (mkState true (U "ch") 0) []); reflexivity.
Defined.

(** ** Selection commit *)

Section Commit.
Context {W : Type} {D : CaseData}.
Implicit Types (P : SelectFieldProps W) (s : ControlState) (w : W).

Lemma Commits_enabled P s e o :
  Commits D P s e o -> truthy (disabled o) = false.
Proof.
  intros H. destruct H as [i o _ Hn | o _ _ Hn];
    apply nth_error_In in Hn; now apply filteredOptions_enabled in Hn.
Qed.

Lemma Commits_dispatch P s e o :
  Commits D P s e o ->
  dispatch D P s e = handleSelect o \/
  dispatch D P s e = PreventDefault :: handleSelect o.
Proof.
  intros H. destruct H as [i o Ho Hn | o Ho Hi Hn].
  - left. simpl. now rewrite Ho, Hn.
  - right. simpl. unfold handleKeyDown. rewrite Ho. simpl.
    rewrite Hn.
    destruct (Z.geb_spec (focusedIndex s) 0); [|lia].
    destruct (Z.ltb_spec (focusedIndex s)
                (Z.of_nat (length (filteredOptions D P s)))); [|lia].
    reflexivity.
Qed.

Lemma Commits_step P s w e o :
  Commits D P s e o ->
  step D P e (s, w) = (mkState false [] (-1), notify P (value o) w).
Proof.
  intros H. pose proof (Commits_enabled _ _ _ _ H) as He.
  unfold step. simpl fst.
  destruct (Commits_dispatch _ _ _ _ H) as [-> | ->].
  - now apply select_enabled.
  - change (performAll P (PreventDefault :: handleSelect o) (s, w))
      with (select P o (s, w)).
    now apply select_enabled.
Qed.

Lemma In_handleSelect (o : SelectOption) (v : string) :
  In (CallOnChange v) (handleSelect o) ->
  truthy (disabled o) = false /\ v = value o.
Proof.
  unfold handleSelect. destruct (truthy (disabled o)); simpl.
  - tauto.
  - intros [H | [H | [H | [H | []]]]]; try discriminate.
    injection H as <-. auto.
Qed.

Lemma dispatch_onChange_commits P s e v :
  In (CallOnChange v) (dispatch D P s e) ->
  exists o, Commits D P s e o /\ v = value o.
Proof.
  destruct e as [|key|text|i|i|inside]; simpl.
  - unfold handleToggle. destruct (props_disabled P); simpl; [tauto|].
    intros [H | []]. discriminate.
  - unfold handleKeyDown. destruct (isOpen s) eqn:Ho; simpl.
    + destruct (String.eqb key "ArrowDown");
        [intros [H | [H | []]]; discriminate|].
      destruct (String.eqb key "ArrowUp");
        [intros [H | [H | []]]; discriminate|].
      destruct (String.eqb_spec key "Enter") as [-> | _].
      * destruct (Z.geb_spec (focusedIndex s) 0) as [Hge | Hge]; simpl;
          [|intros [H | []]; discriminate].
        destruct (Z.ltb_spec (focusedIndex s)
                    (Z.of_nat (length (filteredOptions D P s)))) as [Hlt | Hlt];
          simpl; [|intros [H | []]; discriminate].
        destruct (nth_error (filteredOptions D P s)
                    (Z.to_nat (focusedIndex s))) as [o|] eqn:Hn;
          [|intros [H | []]; discriminate].
        intros [H | H]; [discriminate|].
        apply In_handleSelect in H. destruct H as [_ ->].
        exists o. split; [|reflexivity].
        apply commit_enter; auto; lia.
      * destruct (String.eqb key "Escape"); simpl; [|tauto].
        intros [H | [H | [H | []]]]; discriminate.
    + destruct (String.eqb key "Enter" || String.eqb key " "); simpl;
        [|tauto].
      intros [H | [H | []]]; discriminate.
  - unfold handleSearchChange.
    destruct (isOpen s && searchable P); simpl; [|tauto].
    intros [H | []]. discriminate.
  - destruct (isOpen s) eqn:Ho; [|simpl; tauto].
    destruct (nth_error (filteredOptions D P s) i) as [o|] eqn:Hn;
      [|simpl; tauto].
    intros H. apply In_handleSelect in H. destruct H as [_ ->].
    exists o. split; [|reflexivity]. now apply commit_click.
  - destruct (isOpen s); [|simpl; tauto].
    destruct (nth_error (filteredOptions D P s) i); simpl; [|tauto].
    intros [H | []]. discriminate.
  - unfold handleClickOutside. destruct inside; simpl; [tauto|].
    intros [H | [H | [H | []]]]; discriminate.
Qed.

End Commit.

(** C5.  A selection commit of a non-disabled option performs, in this
    order, the call of [onChange] with the option's [value] and the three
    resets; a click on a row and Enter on a valid [focusedIndex] both run
    exactly that (Enter after [preventDefault]) and end in the state closed,
    empty search term, -1, with the owner's state changed by that one call.
    No other event calls [onChange], so no other event changes the owner's
    state. *)
Theorem selection_commit_only_path :
  forall (W : Type) (D : CaseData) (P : SelectFieldProps W) (s : ControlState) (w : W),
    (forall o, truthy (disabled o) = false ->
       handleSelect o
       = [CallOnChange (value o); SetIsOpen false; SetSearchTerm [];
          SetFocusedIndex (-1)]
       /\ select P o (s, w) = (mkState false [] (-1), notify P (value o) w)
       /\ (forall f, onChange P = Some f ->
             snd (select P o (s, w)) = f (value o) w))
    /\ (forall e o, Commits D P s e o ->
          truthy (disabled o) = false
          /\ (dispatch D P s e = handleSelect o \/
              dispatch D P s e = PreventDefault :: handleSelect o)
          /\ step D P e (s, w)
             = (mkState false [] (-1), notify P (value o) w))
    /\ (forall e v, In (CallOnChange v) (dispatch D P s e) ->
          exists o, Commits D P s e o /\ v = value o)
    /\ (forall e, (forall o, ~ Commits D P s e o) ->
          snd (step D P e (s, w)) = w).
Proof.
  intros W D P s w. repeat split.
  - unfold handleSelect. now rewrite H.
  - now apply select_enabled.
  - intros f Hf. rewrite select_enabled by assumption.
    unfold notify. simpl. now rewrite Hf.
  - eapply Commits_enabled; eauto.
  - now apply Commits_dispatch.
  - now apply Commits_step.
  - apply dispatch_onChange_commits.
  - intros e Hno. unfold step. rewrite performAll_owner; [reflexivity|].
    intros v Hin. apply dispatch_onChange_commits in Hin.
    destruct Hin as (o & Hc & _). exact (Hno o Hc).
Qed.

Lemma selection_commit_only_path_witness :
  step latinGreek (fruitProps false) (RowClick 1) (mkState true [] 0, [])
  = (mkState false [] (-1), ["c"])
  /\ step latinGreek (fruitProps false) (ButtonKeyDown "Enter") (mkState true [] 0, [])
     = (mkState false [] (-1), ["a"]).
Proof.
  destruct (selection_commit_only_path (list string) latinGreek (fruitProps false)
              (mkState true [] 0) []) as (_ & Hc & _).
  split.
  - apply (Hc (RowClick 1) cherry). apply commit_click; reflexivity.
  - apply (Hc (ButtonKeyDown "Enter") apple).
    apply commit_enter; try reflexivity.
    vm_compute. split; [discriminate | reflexivity].
Defined.

(** ** Transitions and invariants *)

Section Invariants.
Context {W : Type} {D : CaseData}.
Implicit Types (P : SelectFieldProps W) (s : ControlState) (w : W)
  (c : Config W).

Lemma handleSelect_outcome P o s w :
  fst (performAll P (handleSelect o) (s, w)) = s \/
  fst (performAll P (handleSelect o) (s, w)) = mkState false [] (-1).
Proof.
  unfold handleSelect. destruct (truthy (disabled o)); simpl; auto.
Qed.

Lemma step_transition P e s w :
  Transition D P s e (fst (step D P e (s, w))).
Proof.
  unfold step. simpl fst.
  destruct e as [|key|text|i|i|inside]; simpl dispatch.
  - unfold handleToggle.
    destruct (props_disabled P) eqn:Hd; simpl; [constructor|].
    now apply T_toggle.
  - change (performAll P (handleKeyDown D P s key) (s, w))
      with (keyDown D P key (s, w)).
    destruct (isOpen s) eqn:Ho.
    + destruct (String.eqb_spec key "ArrowDown") as [-> | Hk1].
      { rewrite keyDown_ArrowDown by assumption. now apply T_down. }
      destruct (String.eqb_spec key "ArrowUp") as [-> | Hk2].
      { rewrite keyDown_ArrowUp by assumption. now apply T_up. }
      destruct (String.eqb_spec key "Enter") as [-> | Hk3].
      { rewrite keyDown_Enter_open by assumption.
        destruct ((0 <=? focusedIndex s)
                  && (focusedIndex s
                      <? Z.of_nat (length (filteredOptions D P s))));
          [|constructor].
        destruct (nth_error (filteredOptions D P s)
                    (Z.to_nat (focusedIndex s))) as [o|]; [|constructor].
        destruct (handleSelect_outcome P o s w) as [E | E];
          unfold select; rewrite E; constructor. }
      destruct (String.eqb_spec key "Escape") as [-> | Hk4].
      { rewrite keyDown_Escape by assumption. constructor. }
      unfold keyDown, handleKeyDown. simpl fst. rewrite Ho. simpl negb.
      cbv iota.
      apply String.eqb_neq in Hk1, Hk2, Hk3, Hk4.
      rewrite Hk1, Hk2, Hk3, Hk4. constructor.
    + rewrite keyDown_closed by assumption.
      destruct (String.eqb key "Enter" || String.eqb key " ");
        [now apply T_open | constructor].
  - destruct (isOpen s) eqn:Ho; simpl; [|constructor].
    destruct (searchable P); simpl; [|constructor].
    rewrite Ho. now apply T_search.
  - destruct (isOpen s); [|constructor].
    destruct (nth_error (filteredOptions D P s) i) as [o|]; [|constructor].
    destruct (handleSelect_outcome P o s w) as [E | E];
      rewrite E; constructor.
  - destruct (isOpen s) eqn:Ho; [|constructor].
    destruct (nth_error (filteredOptions D P s) i) as [o|] eqn:Hn;
      [|constructor].
    simpl. rewrite Ho. apply T_hover; [assumption|].
    apply nth_error_Some. congruence.
  - destruct inside; simpl; constructor.
Qed.

Lemma run_cons P e tr c : run D P (e :: tr) c = run D P tr (step D P e c).
Proof. reflexivity. Qed.

(** [focusedIndex] never drops below -1. *)
Lemma Transition_focus_lower P s e s' :
  Transition D P s e s' -> -1 <= focusedIndex s -> -1 <= focusedIndex s'.
Proof.
  intros T Hs. destruct T; simpl; try assumption; try lia.
  - zcases; lia.
  - zcases; lia.
Qed.

Lemma run_focus_lower P tr c :
  -1 <= focusedIndex (fst c) -> -1 <= focusedIndex (fst (run D P tr c)).
Proof.
  revert c. induction tr as [|e tr IH]; intros [s w] Hc; [exact Hc|].
  rewrite run_cons. apply IH. destruct (step D P e (s, w)) as [s' w'] eqn:E.
  pose proof (step_transition P e s w) as T. rewrite E in T.
  exact (Transition_focus_lower _ _ _ _ T Hc).
Qed.

(** Safe events keep [focusedIndex] at -1 or inside the filtered list. *)
Lemma Transition_focus_valid P s e s' :
  Transition D P s e s' ->
  focus_valid D P s -> safe_event D P s e = true -> focus_valid D P s'.
Proof.
  intros T Hv Hsafe. unfold focus_valid in *.
  destruct T; simpl focusedIndex;
    rewrite ?filteredOptions_searchTerm; try assumption.
  - now left.
  - right. simpl in Hsafe. rewrite H in Hsafe. simpl in Hsafe.
    apply negb_true_iff, Nat.eqb_neq in Hsafe.
    zcases; lia.
  - zcases; lia.
  - simpl in Hsafe. apply Z.ltb_lt in Hsafe.
    change (filteredOptions D P (mkState true text (focusedIndex s)))
      with (filteredOptions D P (mkState (isOpen s) text (focusedIndex s))).
    lia.
  - right. lia.
Qed.

Lemma run_focus_valid P tr c :
  focus_valid D P (fst c) -> safe_trace D P tr c = true ->
  focus_valid D P (fst (run D P tr c)).
Proof.
  revert c. induction tr as [|e tr IH]; intros [s w] Hv Hs; [exact Hv|].
  rewrite run_cons. simpl in Hs. apply andb_true_iff in Hs.
  destruct Hs as [He Htr]. apply IH; [|exact Htr].
  apply (Transition_focus_valid P s e); auto using step_transition.
Qed.

(** Without a toggle click on an open panel, a closed panel has no focused
    row. *)
Lemma Transition_closed_reset P s e s' :
  Transition D P s e s' ->
  (e = ButtonClick -> isOpen s = false) ->
  (isOpen s = false -> focusedIndex s = -1) ->
  isOpen s' = false -> focusedIndex s' = -1.
Proof.
  intros T He Hs. destruct T; simpl; try discriminate; auto.
Qed.

Lemma run_closed_reset P tr c :
  toggle_free D P tr c = true ->
  (isOpen (fst c) = false -> focusedIndex (fst c) = -1) ->
  isOpen (fst (run D P tr c)) = false -> focusedIndex (fst (run D P tr c)) = -1.
Proof.
  revert c. induction tr as [|e tr IH]; intros [s w] Hf Hc; [exact Hc|].
  rewrite run_cons. simpl in Hf. apply andb_true_iff in Hf.
  destruct Hf as [He Htr]. apply IH; [exact Htr|].
  apply (Transition_closed_reset P s e); auto using step_transition.
  intros ->. now apply negb_true_iff in He.
Qed.

End Invariants.

(** C2 as stated fails.  Hovering the second row and then typing "ap"
    leaves [focusedIndex] at 1 over a filtered list of one option; ArrowDown
    over an open, empty list sets [focusedIndex] to 0.  In both reached
    states [focusedIndex] is neither -1 nor an index of the filtered list. *)
Lemma focus_invariant_broken :
  ~ focus_valid latinGreek (fruitProps true)
      (fst (run latinGreek (fruitProps true)
              [ButtonClick; RowMouseEnter 1; SearchChange (U "ap")]
              (initialState, [])))
  /\ ~ focus_valid latinGreek noOptionProps
         (fst (run latinGreek noOptionProps [ButtonClick; ButtonKeyDown "ArrowDown"]
                 (initialState, []))).
Proof.
  split; unfold focus_valid.
  - change (~ (1 = -1 \/ 0 <= 1 < 1)). lia.
  - change (~ (0 = -1 \/ 0 <= 0 < 0)). lia.
Qed.

(** C2, amended.  Starting from a state whose [focusedIndex] is -1 or a
    valid index of the filtered list (the initial state is one), after every
    sequence of interactions [focusedIndex] is at least -1; and it is again
    -1 or a valid index of the list filtered at that point whenever no
    ArrowDown of the sequence was pressed over an open, empty filtered list
    and no search-term change left a filtered list that ends at or before
    [focusedIndex]. *)
Theorem focus_invariant_amended :
  forall (W : Type) (D : CaseData) (P : SelectFieldProps W) (tr : list Event)
         (c : Config W),
    focus_valid D P (fst c) ->
    -1 <= focusedIndex (fst (run D P tr c))
    /\ (safe_trace D P tr c = true -> focus_valid D P (fst (run D P tr c))).
Proof.
  intros W D P tr c Hv. split.
  - apply run_focus_lower. unfold focus_valid in Hv. lia.
  - now apply run_focus_valid.
Qed.

Lemma focus_invariant_amended_witness :
  -1 <= focusedIndex
          (fst (run latinGreek (fruitProps true)
                  [ButtonClick; RowMouseEnter 1; SearchChange (U "e");
                   ButtonKeyDown "ArrowDown"; ButtonKeyDown "ArrowUp"]
                  (initialState, [])))
  /\ focus_valid latinGreek (fruitProps true)
       (fst (run latinGreek (fruitProps true)
               [ButtonClick; RowMouseEnter 1; SearchChange (U "e");
                ButtonKeyDown "ArrowDown"; ButtonKeyDown "ArrowUp"]
               (initialState, []))).
Proof.
  destruct (focus_invariant_amended (list string) latinGreek (fruitProps true)
              [ButtonClick; RowMouseEnter 1; SearchChange (U "e");
               ButtonKeyDown "ArrowDown"; ButtonKeyDown "ArrowUp"]
              (initialState, [])) as [Hl Hv].
  - left. reflexivity.
  - split; [exact Hl | apply Hv; reflexivity].
Defined.

(** C8 as stated fails.  Open by click, ArrowDown, close by a click on the
    toggle button: the control is closed and enabled, and Enter then opens
    the panel with [focusedIndex] 0, not -1. *)
Lemma enter_reopens_with_stale_focus :
  let P := fruitProps false in
  let c := run latinGreek P [ButtonClick; ButtonKeyDown "ArrowDown"; ButtonClick]
             (initialState, []) in
  isOpen (fst c) = false
  /\ props_disabled P = false
  /\ isOpen (fst (step latinGreek P (ButtonKeyDown "Enter") c)) = true
  /\ focusedIndex (fst (step latinGreek P (ButtonKeyDown "Enter") c)) = 0
  /\ focusedIndex (fst (step latinGreek P (ButtonKeyDown "Enter") c)) <> -1.
Proof. repeat split. discriminate. Qed.

(** C8, amended.  Whenever a closed, enabled control receives Enter, the
    panel opens and [searchTerm] and [focusedIndex] keep the values they had
    while the control was closed; [focusedIndex] is -1 in the resulting state
    provided no earlier click on the toggle button closed an open panel. *)
Theorem enter_opens_closed_control :
  forall (W : Type) (D : CaseData) (P : SelectFieldProps W) (tr : list Event) (w : W),
    let c := run D P tr (initialState, w) in
    let c' := step D P (ButtonKeyDown "Enter") c in
    props_disabled P = false ->
    isOpen (fst c) = false ->
    isOpen (fst c') = true
    /\ searchTerm (fst c') = searchTerm (fst c)
    /\ focusedIndex (fst c') = focusedIndex (fst c)
    /\ snd c' = snd c
    /\ (toggle_free D P tr (initialState, w) = true ->
        focusedIndex (fst c') = -1).
Proof.
  intros W D P tr w c c' Hd Hc.
  assert (E : c' = (mkState true (searchTerm (fst c)) (focusedIndex (fst c)),
                    snd c)).
  { subst c'. destruct c as [s w0]. simpl in Hc |- *.
    unfold step. simpl.
    change (performAll P (handleKeyDown D P s "Enter") (s, w0))
      with (keyDown D P "Enter" (s, w0)).
    now rewrite keyDown_closed. }
  rewrite E. simpl. repeat split.
  intros Hf. apply (run_closed_reset P tr (initialState, w)); auto.
Qed.

Lemma enter_opens_closed_control_witness :
  let P := fruitProps false in
  let c := run latinGreek P [ButtonClick; ButtonKeyDown "ArrowDown";
                  ButtonKeyDown "Escape"] (initialState, []) in
  isOpen (fst (step latinGreek P (ButtonKeyDown "Enter") c)) = true
  /\ focusedIndex (fst (step latinGreek P (ButtonKeyDown "Enter") c)) = -1.
Proof.
  intros P c.
  destruct (enter_opens_closed_control (list string) latinGreek P
              [ButtonClick; ButtonKeyDown "ArrowDown"; ButtonKeyDown "Escape"]
              []) as (Ho & _ & _ & _ & Hf).
  - reflexivity.
  - reflexivity.
  - split; [exact Ho | apply Hf; reflexivity].
Defined.

(** ** The toggle button's text *)

Lemma find_first_match {A : Type} (p : A -> bool) (pre post : list A) (x : A) :
  (forall y, In y pre -> p y = false) -> p x = true ->
  find p (pre ++ x :: post)%list = Some x.
Proof.
  intros Hpre Hx. induction pre as [|y pre IH]; simpl.
  - now rewrite Hx.
  - rewrite (Hpre y) by now left. apply IH. intros z Hz. apply Hpre. now right.
Qed.

Lemma NoDup_map_inj {A B : Type} (f : A -> B) (l : list A) (a b : A) :
  NoDup (map f l) -> In a l -> In b l -> f a = f b -> a = b.
Proof.
  induction l as [|x l IH]; simpl; intros Hnd Ha Hb Hab; [contradiction|].
  inversion Hnd as [|? ? Hnot Hnd']; subst.
  destruct Ha as [-> | Ha], Hb as [-> | Hb]; auto.
  - exfalso. apply Hnot. rewrite Hab. now apply in_map.
  - exfalso. apply Hnot. rewrite <- Hab. now apply in_map.
Qed.

(** The toggle button shows the label of the first option, disabled or not
    and whatever the search term, whose [value] is the [value] prop; it
    shows the placeholder when [value] is undefined or no option carries
    it. *)
Theorem button_shows_first_match :
  forall (W : Type) (P : SelectFieldProps W) (placeholder : ustring),
    (props_value P = None -> buttonText P placeholder = placeholder)
    /\ (forall v, props_value P = Some v ->
          (forall o, In o (options P) -> value o <> v) ->
          buttonText P placeholder = placeholder)
    /\ (forall v pre o post,
          props_value P = Some v ->
          options P = (pre ++ o :: post)%list ->
          (forall o', In o' pre -> value o' <> v) ->
          value o = v ->
          buttonText P placeholder = label o).
Proof.
  intros W P placeholder. unfold buttonText, selectedOption.
  split; [|split].
  - intros ->. reflexivity.
  - intros v -> Hno.
    destruct (find (fun o => String.eqb (value o) v) (options P)) as [o|] eqn:E;
      [|reflexivity].
    apply find_some in E. destruct E as [Hin Heq].
    apply String.eqb_eq in Heq. now destruct (Hno o Hin).
  - intros v pre o post -> -> Hpre Ho.
    rewrite find_first_match; [reflexivity| |now apply String.eqb_eq].
    intros o' Hin. apply String.eqb_neq. now apply Hpre.
Qed.

Lemma button_shows_first_match_witness :
  buttonText (mkProps [apple; banana; cherry] (Some "b") (Some recorder)
                true false) (U "Select an option...")
  = U "Banana"
  /\ buttonText (mkProps [apple; banana; cherry] (Some "z") (Some recorder)
                   true false) (U "Select an option...")
     = (U "Select an option...").
Proof.
  split.
  - destruct (button_shows_first_match (list string)
                (mkProps [apple; banana; cherry] (Some "b") (Some recorder)
                   true false) (U "Select an option...")) as (_ & _ & H).
    apply (H "b" [apple] banana [cherry]); try reflexivity.
    intros o' [<- | []]. discriminate.
  - destruct (button_shows_first_match (list string)
                (mkProps [apple; banana; cherry] (Some "z") (Some recorder)
                   true false) (U "Select an option...")) as (_ & H & _).
    apply (H "z"); [reflexivity|].
    intros o [<- | [<- | [<- | []]]]; discriminate.
Defined.

(** ** Narrowing by search *)

Lemma filter_twice {A : Type} (p q : A -> bool) (l : list A) :
  filter q (filter p l) = filter (fun x => p x && q x) l.
Proof.
  induction l as [|x l IH]; simpl; [reflexivity|].
  destruct (p x); simpl; [destruct (q x); now rewrite IH | exact IH].
Qed.

Lemma filter_all {A : Type} (p : A -> bool) (l : list A) :
  (forall x, p x = true) -> filter p l = l.
Proof.
  intros Hp. induction l as [|x l IH]; simpl; [reflexivity|].
  now rewrite Hp, IH.
Qed.

Lemma filter_length_le {A : Type} (p : A -> bool) (l : list A) :
  (length (filter p l) <= length l)%nat.
Proof.
  induction l as [|x l IH]; simpl; [lia|]. destruct (p x); simpl; lia.
Qed.

Lemma includes_lower_extension (D : CaseData) (lbl pre t post : ustring) :
  plain (pre ++ t ++ post) = true ->
  includes (toLowerCase D lbl) (toLowerCase D (pre ++ t ++ post)) = true ->
  includes (toLowerCase D lbl) (toLowerCase D t) = true.
Proof.
  intros Hp H. apply (includes_trans _ _ _ H).
  assert (Ht : plain t = true).
  { rewrite !plain_app in Hp. apply andb_true_iff in Hp.
    destruct Hp as [_ Hp]. apply andb_true_iff in Hp. tauto. }
  rewrite !toLowerCase_plain by assumption.
  apply includes_iff_app.
  exists (map (simpleLower D) pre), (map (simpleLower D) post).
  now rewrite !map_app.
Qed.

(** Extending a search term on either side only removes options, as long
    as the longer term holds neither U+03A3 nor U+0130: the list filtered by
    the longer term is the list filtered by the shorter term, filtered once
    more by the longer one, so it is no longer and holds no option the
    shorter term had dropped. *)
Theorem search_extension_narrows :
  forall (W : Type) (D : CaseData) (P : SelectFieldProps W) (b : bool)
         (i : Z) (pre t post : ustring),
    plain (pre ++ t ++ post) = true ->
    let shorter := filteredOptions D P (mkState b t i) in
    let longer := filteredOptions D P (mkState b (pre ++ t ++ post) i) in
    longer
    = filter (fun o => negb (searchable P)
                       || includes (toLowerCase D (label o))
                            (toLowerCase D (pre ++ t ++ post)))
        shorter
    /\ incl longer shorter
    /\ (length longer <= length shorter)%nat.
Proof.
  intros W D P b i pre t post Hp shorter longer.
  assert (E : longer
              = filter (fun o => negb (searchable P)
                                 || includes (toLowerCase D (label o))
                                      (toLowerCase D (pre ++ t ++ post)))
                  shorter).
  { subst shorter longer. unfold filteredOptions. simpl.
    destruct (searchable P); simpl.
    - rewrite filter_twice. apply filter_ext. intros o.
      destruct (includes (toLowerCase D (label o))
                  (toLowerCase D (pre ++ t ++ post))) eqn:HL.
      + rewrite (includes_lower_extension D _ _ _ _ Hp HL).
        now destruct (negb (truthy (disabled o))).
      + now rewrite andb_false_r.
    - symmetry. now apply filter_all. }
  split; [exact E|]. rewrite E. split.
  - intros o Ho. apply filter_In in Ho. tauto.
  - apply filter_length_le.
Qed.

Lemma search_extension_narrows_witness :
  incl (filteredOptions latinGreek (fruitProps true)
          (mkState true (U "Che") (-1)))
       (filteredOptions latinGreek (fruitProps true)
          (mkState true (U "h") (-1)))
  /\ (length (filteredOptions latinGreek (fruitProps true)
                (mkState true (U "Che") (-1)))
      <= length (filteredOptions latinGreek (fruitProps true)
                   (mkState true (U "h") (-1))))%nat.
Proof.
  destruct (search_extension_narrows (list string) latinGreek
              (fruitProps true) true (-1) (U "C") (U "h") (U "e"))
    as (_ & Hincl & Hlen).
  - reflexivity.
  - split; [exact Hincl | exact Hlen].
Defined.

(** With U+03A3 the proviso is needed: the term U+0391 U+03A3 hides the
    label U+0391 U+03A3 U+0391 and the longer term, the label itself, shows
    it. *)
Example sigma_extension_adds_option :
  filteredOptions latinGreek asaProps (mkState true asTerm (-1)) = []
  /\ filteredOptions latinGreek asaProps
       (mkState true (asTerm ++ [913]) (-1)) = [asaOption].
Proof. split; reflexivity. Qed.

(** With an empty search term, and so after every reset, a searchable
    control lists every option that is not disabled, in source order, as a
    control without search does. *)
Theorem empty_search_lists_all_enabled :
  forall (W : Type) (D : CaseData) (P : SelectFieldProps W) (s : ControlState),
    searchTerm s = [] ->
    filteredOptions D P s
    = filter (fun o => negb (truthy (disabled o))) (options P).
Proof.
  intros W D P s Ht. unfold filteredOptions. rewrite Ht.
  destruct (searchable P); [|reflexivity].
  apply filter_ext. intros o. simpl toLowerCase.
  now rewrite includes_empty.
Qed.

Lemma empty_search_lists_all_enabled_witness :
  filteredOptions latinGreek (fruitProps true) initialState
  = filter (fun o => negb (truthy (disabled o))) [apple; banana; cherry].
Proof.
  apply (empty_search_lists_all_enabled (list string) latinGreek (fruitProps true)
           initialState).
  reflexivity.
Defined.

(** ** Rows of the open panel *)

Section Rows.
Context {W : Type} {D : CaseData}.
Implicit Types (P : SelectFieldProps W) (s : ControlState) (w : W).

Lemma In_rowsFrom P s (k : nat) (l : list SelectOption) (r : RowView) :
  In r (rowsFrom P s k l) ->
  exists j, row_index r = (k + j)%nat
            /\ nth_error l j = Some (row_option r)
            /\ row_focused r = (focusedIndex s =? Z.of_nat (k + j))
            /\ row_selected r = isSelected P (row_option r).
Proof.
  revert k. induction l as [|o l IH]; intros k; simpl; [contradiction|].
  intros [<- | Hin].
  - exists 0%nat. simpl. rewrite Nat.add_0_r. auto.
  - destruct (IH _ Hin) as (j & Hi & Hn & Hf & Hs).
    exists (S j). rewrite Nat.add_succ_r. simpl. auto.
Qed.

Lemma rowsFrom_focused_count P s (k : nat) (l : list SelectOption) :
  length (filter row_focused (rowsFrom P s k l))
  = if (Z.of_nat k <=? focusedIndex s)
       && (focusedIndex s <? Z.of_nat k + Z.of_nat (length l))
    then 1%nat else 0%nat.
Proof.
  revert k. induction l as [|o l IH]; intros k.
  - simpl. destruct (Z.leb_spec (Z.of_nat k) (focusedIndex s)); simpl;
      [|reflexivity].
    destruct (Z.ltb_spec (focusedIndex s) (Z.of_nat k + 0)); [lia|reflexivity].
  - cbn [rowsFrom filter row_focused length]. specialize (IH (S k)).
    destruct (Z.eqb_spec (focusedIndex s) (Z.of_nat k)) as [E | E];
      cbn [length]; rewrite IH; clear IH;
      destruct (Z.leb_spec (Z.of_nat (S k)) (focusedIndex s));
      destruct (Z.leb_spec (Z.of_nat k) (focusedIndex s));
      destruct (Z.ltb_spec (focusedIndex s)
                  (Z.of_nat (S k) + Z.of_nat (length l)));
      destruct (Z.ltb_spec (focusedIndex s)
                  (Z.of_nat k + Z.of_nat (S (length l))));
      simpl; try reflexivity; lia.
Qed.

End Rows.

(** The open panel never highlights two rows as focused: exactly one row is
    highlighted when [focusedIndex] is an index of the filtered list, none
    otherwise (also when [focusedIndex] has run past the list). *)
Theorem focused_row_unique :
  forall (W : Type) (D : CaseData) (P : SelectFieldProps W) (s : ControlState),
    length (filter row_focused (rows D P s))
    = if (0 <=? focusedIndex s)
         && (focusedIndex s <? Z.of_nat (length (filteredOptions D P s)))
      then 1%nat else 0%nat.
Proof. intros W D P s. unfold rows. now rewrite rowsFrom_focused_count. Qed.

(** The row highlighted as focused is the option Enter commits: on an open,
    enabled control Enter calls [onChange] with that row's value and resets
    the state. *)
Theorem enter_commits_highlighted_row :
  forall (W : Type) (D : CaseData) (P : SelectFieldProps W) (s : ControlState) (w : W)
         (r : RowView),
    props_disabled P = false ->
    isOpen s = true ->
    In r (rows D P s) ->
    row_focused r = true ->
    step D P (ButtonKeyDown "Enter") (s, w)
    = (mkState false [] (-1), notify P (value (row_option r)) w).
Proof.
  intros W D P s w r Hd Ho Hin Hf.
  apply In_rowsFrom in Hin. destruct Hin as (j & _ & Hn & Hfj & _).
  rewrite Hfj in Hf. apply Z.eqb_eq in Hf. simpl in Hf.
  apply Commits_step. apply commit_enter; auto.
  - assert (j < length (filteredOptions D P s))%nat
      by (apply nth_error_Some; congruence).
    lia.
  - rewrite Hf, Nat2Z.id. exact Hn.
Qed.

Lemma enter_commits_highlighted_row_witness :
  step latinGreek (fruitProps false) (ButtonKeyDown "Enter") (mkState true [] 1, [])
  = (mkState false [] (-1), ["c"]).
Proof.
  apply (enter_commits_highlighted_row (list string) latinGreek (fruitProps false)
           (mkState true [] 1) [] (mkRow cherry 1 true false));
    try reflexivity.
  right. left. reflexivity.
Defined.

(** When the options carry pairwise different values, a row marked as
    selected is the option whose label the toggle button shows. *)
Theorem selected_row_matches_button :
  forall (W : Type) (D : CaseData) (P : SelectFieldProps W) (s : ControlState)
         (placeholder : ustring) (r : RowView),
    NoDup (map value (options P)) ->
    In r (rows D P s) ->
    row_selected r = true ->
    selectedOption P = Some (row_option r)
    /\ buttonText P placeholder = label (row_option r).
Proof.
  intros W D P s placeholder r Hnd Hin Hsel.
  apply In_rowsFrom in Hin. destruct Hin as (j & _ & Hn & _ & Hs).
  rewrite Hs in Hsel. unfold isSelected in Hsel.
  apply nth_error_In, filteredOptions_In in Hn. destruct Hn as [Hopt _].
  assert (E : selectedOption P = Some (row_option r)).
  { unfold selectedOption.
    destruct (props_value P) as [v|]; [|discriminate].
    destruct (find (fun o => String.eqb (value o) v) (options P))
      as [o'|] eqn:F.
    - apply find_some in F. destruct F as [Hin' Hv'].
      apply String.eqb_eq in Hsel, Hv'.
      f_equal. apply (NoDup_map_inj value (options P)); congruence.
    - apply (find_none _ _ F) in Hopt. simpl in Hopt. congruence. }
  split; [exact E|]. unfold buttonText. now rewrite E.
Qed.

Lemma selected_row_matches_button_witness :
  selectedOption (mkProps [apple; banana; cherry] (Some "c") (Some recorder)
                    false false) = Some cherry
  /\ buttonText (mkProps [apple; banana; cherry] (Some "c") (Some recorder)
                   false false) (U "Select an option...") = U "Cherry".
Proof.
  apply (selected_row_matches_button (list string) latinGreek
           (mkProps [apple; banana; cherry] (Some "c") (Some recorder)
              false false)
           (mkState true [] (-1)) (U "Select an option...")
           (mkRow cherry 1 false true)).
  - repeat constructor; simpl; intuition discriminate.
  - right. left. reflexivity.
  - reflexivity.
Defined.

(** ** Behaviour of single events and of sequences *)

Section Sequences.
Context {W : Type} {D : CaseData}.
Implicit Types (P : SelectFieldProps W) (s : ControlState) (w : W)
  (c : Config W).

Lemma step_closed P e s w :
  isOpen s = false -> step D P e (s, w) = (closedStep P s e, w).
Proof.
  intros Hc. destruct s as [b t i]. simpl in Hc. subst b.
  unfold step, closedStep.
  destruct e as [|key|text|j|j|inside]; simpl.
  - unfold handleToggle. destruct (props_disabled P); reflexivity.
  - unfold handleKeyDown. simpl.
    destruct (String.eqb key "Enter" || String.eqb key " "); reflexivity.
  - reflexivity.
  - reflexivity.
  - reflexivity.
  - destruct inside; reflexivity.
Qed.

Lemma step_disabled_pointer P e s w :
  props_disabled P = true -> isOpen s = false ->
  (forall key, e <> ButtonKeyDown key) ->
  isOpen (fst (step D P e (s, w))) = false /\ snd (step D P e (s, w)) = w.
Proof.
  intros Hd Hc Hk. rewrite step_closed by assumption. unfold closedStep.
  rewrite Hd. destruct e as [|key|text|j|j|inside]; simpl; auto.
  - now destruct (Hk key).
  - destruct inside; auto.
Qed.

Lemma step_RowMouseEnter P s w (i : nat) (o : SelectOption) :
  isOpen s = true ->
  nth_error (filteredOptions D P s) i = Some o ->
  step D P (RowMouseEnter i) (s, w)
  = (mkState true (searchTerm s) (Z.of_nat i), w).
Proof.
  intros Ho Hn. unfold step. simpl. rewrite Ho, Hn. simpl. now rewrite Ho.
Qed.

Lemma iter_ArrowDown P s w (k : nat) :
  let n := Z.of_nat (length (filteredOptions D P s)) in
  isOpen s = true -> 0 < n -> 0 <= focusedIndex s < n ->
  Nat.iter k (keyDown D P "ArrowDown") (s, w)
  = (mkState true (searchTerm s) ((focusedIndex s + Z.of_nat k) mod n), w).
Proof.
  intros n Ho Hn Hi. induction k as [|k IH].
  - simpl. rewrite Z.add_0_r, Z.mod_small by lia.
    destruct s as [b t i]. simpl in Ho. now subst b.
  - rewrite Nat.iter_succ, IH.
    rewrite keyDown_ArrowDown by reflexivity.
    rewrite filteredOptions_searchTerm. fold n.
    cbn [focusedIndex searchTerm]. f_equal. f_equal.
    replace (focusedIndex s + Z.of_nat (S k))
      with (focusedIndex s + Z.of_nat k + 1) by lia.
    rewrite <- (Zplus_mod_idemp_l (focusedIndex s + Z.of_nat k)).
    pose proof (Z.mod_pos_bound (focusedIndex s + Z.of_nat k) n Hn) as Hm.
    clearbody n.
    destruct (Z.ltb_spec ((focusedIndex s + Z.of_nat k) mod n) (n - 1)).
    + rewrite (Z.mod_small (_ + 1)); lia.
    + replace ((focusedIndex s + Z.of_nat k) mod n + 1) with n by lia.
      now rewrite Z_mod_same_full.
Qed.

Lemma iter_ArrowUp P s w (k : nat) :
  let n := Z.of_nat (length (filteredOptions D P s)) in
  isOpen s = true -> 0 < n -> 0 <= focusedIndex s < n ->
  Nat.iter k (keyDown D P "ArrowUp") (s, w)
  = (mkState true (searchTerm s) ((focusedIndex s - Z.of_nat k) mod n), w).
Proof.
  intros n Ho Hn Hi. induction k as [|k IH].
  - simpl. rewrite Z.sub_0_r, Z.mod_small by lia.
    destruct s as [b t i]. simpl in Ho. now subst b.
  - rewrite Nat.iter_succ, IH.
    rewrite keyDown_ArrowUp by reflexivity.
    rewrite filteredOptions_searchTerm. fold n.
    cbn [focusedIndex searchTerm]. f_equal. f_equal.
    replace (focusedIndex s - Z.of_nat (S k))
      with (focusedIndex s - Z.of_nat k - 1) by lia.
    rewrite <- (Zminus_mod_idemp_l (focusedIndex s - Z.of_nat k)).
    pose proof (Z.mod_pos_bound (focusedIndex s - Z.of_nat k) n Hn) as Hm.
    clearbody n. rewrite Z.gtb_ltb.
    destruct (Z.ltb_spec 0 ((focusedIndex s - Z.of_nat k) mod n)).
    + rewrite (Z.mod_small (_ - 1)); lia.
    + replace ((focusedIndex s - Z.of_nat k) mod n) with 0 by lia.
      apply Z.mod_unique_pos with (q := -1); lia.
Qed.

Lemma calls_In (acts : list Action) (v : string) :
  In v (calls acts) -> In (CallOnChange v) acts.
Proof.
  induction acts as [|a acts IH]; simpl; [tauto|].
  destruct a; simpl; try (intros H; right; now apply IH).
  intros [-> | H]; [now left | right; now apply IH].
Qed.

Lemma performAll_calls P (acts : list Action) s w :
  snd (performAll P acts (s, w)) = notifyAll P (calls acts) w.
Proof.
  unfold performAll, notifyAll. revert s w.
  induction acts as [|a acts IH]; intros s w; [reflexivity|].
  destruct a; simpl; apply IH.
Qed.

Lemma dispatch_calls P s e :
  calls (dispatch D P s e) = [] \/
  exists o, In o (options P) /\ disabled o <> Some true
            /\ calls (dispatch D P s e) = [value o].
Proof.
  destruct (calls (dispatch D P s e)) as [|v rest] eqn:E; [now left|right].
  assert (Hin : In (CallOnChange v) (dispatch D P s e))
    by (apply calls_In; rewrite E; now left).
  apply dispatch_onChange_commits in Hin. destruct Hin as (o & Hc & ->).
  pose proof (Commits_enabled _ _ _ _ Hc) as Hen.
  assert (Hopt : In o (options P) /\ disabled o <> Some true).
  { assert (In o (filteredOptions D P s)) as Hf
        by (destruct Hc as [? ? ? Hn | ? ? ? Hn];
            exact (nth_error_In _ _ Hn)).
    apply filteredOptions_In in Hf. unfold visible in Hf. tauto. }
  exists o. split; [tauto|]. split; [tauto|].
  rewrite <- E.
  destruct (Commits_dispatch _ _ _ _ Hc) as [-> | ->];
    unfold handleSelect; rewrite Hen; reflexivity.
Qed.

Lemma Transition_searchTerm P s e s' :
  Transition D P s e s' ->
  (forall text, e <> SearchChange text) ->
  searchTerm s' = searchTerm s \/ searchTerm s' = [].
Proof.
  intros T Hne. destruct T; simpl; auto.
  now destruct (Hne text).
Qed.

Lemma step_searchTerm_not_searchable P e s w :
  searchable P = false -> searchTerm s = [] ->
  searchTerm (fst (step D P e (s, w))) = [].
Proof.
  intros Hs Ht.
  assert (Hcases : (exists text, e = SearchChange text)
                   \/ forall text, e <> SearchChange text)
    by (destruct e; eauto; right; discriminate).
  destruct Hcases as [[text ->] | Hne].
  - unfold step. simpl. rewrite Hs, andb_false_r. exact Ht.
  - destruct (Transition_searchTerm P s e _ (step_transition P e s w) Hne)
      as [E | E]; congruence.
Qed.

End Sequences.

(** A control that is disabled and closed stays closed, and [onChange] is
    never called, under every sequence of events without a key press:
    clicks on the toggle button are ignored and neither rows nor search
    input are rendered.  The key handler does not look at [disabled]: Enter
    opens the panel of a disabled control. *)
Theorem disabled_control_ignores_pointer :
  forall (W : Type) (D : CaseData) (P : SelectFieldProps W) (tr : list Event)
         (c : Config W),
    props_disabled P = true ->
    isOpen (fst c) = false ->
    (pointer_only tr = true ->
     isOpen (fst (run D P tr c)) = false /\ snd (run D P tr c) = snd c)
    /\ isOpen (fst (step D P (ButtonKeyDown "Enter") c)) = true.
Proof.
  intros W D P tr c Hd Hc. split.
  - revert c Hc. induction tr as [|e tr IH]; intros [s w] Hc Hp; [auto|].
    rewrite run_cons. simpl in Hc, Hp. apply andb_true_iff in Hp.
    destruct Hp as [He Hp].
    assert (Hk : forall key, e <> ButtonKeyDown key)
      by (intros key ->; discriminate).
    destruct (step_disabled_pointer (D := D) P e s w Hd Hc Hk) as [Hc' Hw].
    destruct (IH (step D P e (s, w)) Hc' Hp) as [Ho Hs].
    split; [exact Ho|]. now rewrite Hs.
  - destruct c as [s w]. simpl in Hc. now rewrite step_closed.
Qed.

Lemma disabled_control_ignores_pointer_witness :
  let P := mkProps [apple; banana; cherry] None (Some recorder) true true in
  let tr := [ButtonClick; RowClick 0; SearchChange (U "a");
             DocumentMouseDown false; ButtonClick] in
  (isOpen (fst (run latinGreek P tr (initialState, []))) = false
   /\ snd (run latinGreek P tr (initialState, [])) = [])
  /\ isOpen (fst (step latinGreek P (ButtonKeyDown "Enter")
                    (initialState, []))) = true.
Proof.
  intros P tr.
  destruct (disabled_control_ignores_pointer (list string) latinGreek P tr
              (initialState, [])) as [Hrun Hkey]; try reflexivity.
  split; [apply Hrun; reflexivity | exact Hkey].
Defined.

(** On an enabled control two clicks on the toggle button in a row give
    back the state, search term and focused index included. *)
Theorem toggle_twice_identity :
  forall (W : Type) (D : CaseData) (P : SelectFieldProps W) (s : ControlState) (w : W),
    props_disabled P = false ->
    step D P ButtonClick (step D P ButtonClick (s, w)) = (s, w).
Proof.
  intros W D P s w Hd. unfold step, dispatch, handleToggle. simpl.
  rewrite Hd. destruct s as [[|] t i]; reflexivity.
Qed.

Lemma toggle_twice_identity_witness :
  step latinGreek (fruitProps true) ButtonClick
    (step latinGreek (fruitProps true) ButtonClick (mkState true (U "ch") 0, ["a"]))
  = (mkState true (U "ch") 0, ["a"]).
Proof.
  apply (toggle_twice_identity (list string) latinGreek (fruitProps true)). reflexivity.
Defined.

(** What a closed control does with an event, exactly: no event calls
    [onChange]; a click on the toggle button opens the panel unless the
    control is disabled; Enter and Space open it; an outside press resets
    the state; every other event, the arrow keys and Escape among them,
    leaves the state as it is.  Opening changes nothing but [isOpen]. *)
Theorem closed_control_frame :
  forall (W : Type) (D : CaseData) (P : SelectFieldProps W)
         (s : ControlState) (w : W) (e : Event),
    isOpen s = false ->
    step D P e (s, w)
    = (match e with
       | ButtonClick =>
           if props_disabled P then s
           else mkState true (searchTerm s) (focusedIndex s)
       | ButtonKeyDown key =>
           if String.eqb key "Enter" || String.eqb key " "
           then mkState true (searchTerm s) (focusedIndex s)
           else s
       | DocumentMouseDown false => mkState false [] (-1)
       | _ => s
       end, w).
Proof. intros W D P s w e Hc. now apply step_closed. Qed.

Lemma closed_control_frame_witness :
  step latinGreek (fruitProps true) (ButtonKeyDown "Escape")
    (mkState false (U "ch") 1, ["a"])
  = (mkState false (U "ch") 1, ["a"])
  /\ step latinGreek (fruitProps true) (ButtonKeyDown "ArrowDown")
       (mkState false (U "ch") 1, ["a"])
     = (mkState false (U "ch") 1, ["a"]).
Proof.
  split.
  - apply (closed_control_frame (list string) latinGreek (fruitProps true)
             (mkState false (U "ch") 1) ["a"] (ButtonKeyDown "Escape")).
    reflexivity.
  - apply (closed_control_frame (list string) latinGreek (fruitProps true)
             (mkState false (U "ch") 1) ["a"] (ButtonKeyDown "ArrowDown")).
    reflexivity.
Defined.

(** Enter on an open panel whose [focusedIndex] is not an index of the
    filtered list (no row focused, or an index the list no longer reaches)
    only prevents the default action: the state is unchanged and [onChange]
    is not called. *)
Theorem enter_out_of_range_noop :
  forall (W : Type) (D : CaseData) (P : SelectFieldProps W) (s : ControlState) (w : W),
    isOpen s = true ->
    (focusedIndex s < 0 \/
     Z.of_nat (length (filteredOptions D P s)) <= focusedIndex s) ->
    handleKeyDown D P s "Enter" = [PreventDefault]
    /\ keyDown D P "Enter" (s, w) = (s, w).
Proof.
  intros W D P s w Ho Hout.
  assert (G : (focusedIndex s >=? 0)
              && (focusedIndex s <? Z.of_nat (length (filteredOptions D P s)))
              = false).
  { rewrite Z.geb_leb.
    destruct (Z.leb_spec 0 (focusedIndex s)); simpl; [|reflexivity].
    apply Z.ltb_ge. lia. }
  assert (E : handleKeyDown D P s "Enter" = [PreventDefault]).
  { unfold handleKeyDown. rewrite Ho. simpl. now rewrite G. }
  split; [exact E|]. unfold keyDown. simpl fst. now rewrite E.
Qed.

Lemma enter_out_of_range_noop_witness :
  handleKeyDown latinGreek (fruitProps true) (mkState true (U "ap") 1) "Enter"
  = [PreventDefault]
  /\ keyDown latinGreek (fruitProps true) "Enter" (mkState true (U "ap") 1, [])
     = (mkState true (U "ap") 1, []).
Proof.
  apply (enter_out_of_range_noop (list string) latinGreek (fruitProps true)
           (mkState true (U "ap") 1) []).
  - reflexivity.
  - right. vm_compute. discriminate.
Defined.

(** Pointer and keyboard agree: on an open, enabled control, hovering a row
    and then pressing Enter ends in the same configuration as clicking that
    row, the reset state with [onChange] called once on the row's value. *)
Theorem hover_then_enter_is_click :
  forall (W : Type) (D : CaseData) (P : SelectFieldProps W) (s : ControlState) (w : W)
         (i : nat) (o : SelectOption),
    props_disabled P = false ->
    isOpen s = true ->
    nth_error (filteredOptions D P s) i = Some o ->
    step D P (ButtonKeyDown "Enter") (step D P (RowMouseEnter i) (s, w))
    = step D P (RowClick i) (s, w)
    /\ step D P (RowClick i) (s, w)
       = (mkState false [] (-1), notify P (value o) w).
Proof.
  intros W D P s w i o Hd Ho Hn.
  assert (Hclick : step D P (RowClick i) (s, w)
                   = (mkState false [] (-1), notify P (value o) w))
    by (apply Commits_step; now apply commit_click).
  split; [|exact Hclick]. rewrite Hclick.
  rewrite (step_RowMouseEnter P s w i o Ho Hn).
  apply Commits_step. apply commit_enter; auto.
  - rewrite filteredOptions_searchTerm. simpl.
    assert (i < length (filteredOptions D P s))%nat
      by (apply nth_error_Some; congruence).
    lia.
  - rewrite filteredOptions_searchTerm. simpl. now rewrite Nat2Z.id.
Qed.

Lemma hover_then_enter_is_click_witness :
  step latinGreek (fruitProps true) (ButtonKeyDown "Enter")
    (step latinGreek (fruitProps true) (RowMouseEnter 0) (mkState true (U "ch") (-1), []))
  = step latinGreek (fruitProps true) (RowClick 0) (mkState true (U "ch") (-1), [])
  /\ step latinGreek (fruitProps true) (RowClick 0) (mkState true (U "ch") (-1), [])
     = (mkState false [] (-1), ["c"]).
Proof.
  apply (hover_then_enter_is_click (list string) latinGreek (fruitProps true)
           (mkState true (U "ch") (-1)) [] 0%nat cherry); reflexivity.
Defined.

(** A click on the toggle button, Enter and Space open a closed, enabled
    control in the same way: only [isOpen] changes. *)
Theorem open_by_click_or_key_agree :
  forall (W : Type) (D : CaseData) (P : SelectFieldProps W) (s : ControlState) (w : W),
    props_disabled P = false ->
    isOpen s = false ->
    let opened := (mkState true (searchTerm s) (focusedIndex s), w) in
    step D P ButtonClick (s, w) = opened
    /\ step D P (ButtonKeyDown "Enter") (s, w) = opened
    /\ step D P (ButtonKeyDown " ") (s, w) = opened.
Proof.
  intros W D P s w Hd Hc. destruct s as [b t i]. simpl in Hc. subst b.
  unfold step, dispatch, handleToggle, handleKeyDown. simpl.
  rewrite Hd. simpl. auto.
Qed.

Lemma open_by_click_or_key_agree_witness :
  step latinGreek (fruitProps true) ButtonClick (initialState, [])
  = (mkState true [] (-1), [])
  /\ step latinGreek (fruitProps true) (ButtonKeyDown "Enter") (initialState, [])
     = (mkState true [] (-1), [])
  /\ step latinGreek (fruitProps true) (ButtonKeyDown " ") (initialState, [])
     = (mkState true [] (-1), []).
Proof.
  apply (open_by_click_or_key_agree (list string) latinGreek (fruitProps true)
           initialState []); reflexivity.
Defined.

(** Over an open panel with n > 0 filtered options and a valid
    [focusedIndex] i, k presses of ArrowDown lead to index (i + k) mod n and
    k presses of ArrowUp to (i - k) mod n, with everything else unchanged;
    so n presses of either key come back to i. *)
Theorem arrow_presses_shift_modulo :
  forall (W : Type) (D : CaseData) (P : SelectFieldProps W) (s : ControlState) (w : W)
         (k : nat),
    let n := Z.of_nat (length (filteredOptions D P s)) in
    isOpen s = true ->
    0 < n ->
    0 <= focusedIndex s < n ->
    Nat.iter k (keyDown D P "ArrowDown") (s, w)
    = (mkState true (searchTerm s) ((focusedIndex s + Z.of_nat k) mod n), w)
    /\ Nat.iter k (keyDown D P "ArrowUp") (s, w)
       = (mkState true (searchTerm s) ((focusedIndex s - Z.of_nat k) mod n),
          w)
    /\ Nat.iter (Z.to_nat n) (keyDown D P "ArrowDown") (s, w) = (s, w)
    /\ Nat.iter (Z.to_nat n) (keyDown D P "ArrowUp") (s, w) = (s, w).
Proof.
  intros W D P s w k n Ho Hn Hi.
  split; [now apply iter_ArrowDown|].
  split; [now apply iter_ArrowUp|].
  assert (Hs : (s, w) = (mkState true (searchTerm s) (focusedIndex s), w))
    by (destruct s as [b t i]; simpl in Ho; now subst b).
  split.
  - rewrite iter_ArrowDown by assumption. fold n.
    rewrite Z2Nat.id by lia.
    replace (focusedIndex s + n) with (focusedIndex s + 1 * n) by lia.
    rewrite Z_mod_plus_full, Z.mod_small by lia. now rewrite <- Hs.
  - rewrite iter_ArrowUp by assumption. fold n.
    rewrite Z2Nat.id by lia.
    replace (focusedIndex s - n) with (focusedIndex s + (-1) * n) by lia.
    rewrite Z_mod_plus_full, Z.mod_small by lia. now rewrite <- Hs.
Qed.

Lemma arrow_presses_shift_modulo_witness :
  Nat.iter 5 (keyDown latinGreek (fruitProps false) "ArrowDown") (mkState true [] 0, [])
  = (mkState true [] ((0 + 5) mod 2), [])
  /\ Nat.iter 2 (keyDown latinGreek (fruitProps false) "ArrowUp") (mkState true [] 0, [])
     = (mkState true [] 0, []).
Proof.
  split.
  - apply (arrow_presses_shift_modulo (list string) latinGreek (fruitProps false)
             (mkState true [] 0) [] 5).
    + reflexivity.
    + reflexivity.
    + vm_compute. split; [discriminate | reflexivity].
  - apply (arrow_presses_shift_modulo (list string) latinGreek (fruitProps false)
             (mkState true [] 0) [] 0).
    + reflexivity.
    + reflexivity.
    + vm_compute. split; [discriminate | reflexivity].
Defined.

(** Whatever the sequence of events, the owner's state at the end is the
    result of calling [onChange] on a list of values, at most one per event,
    each of them the value of an option of [options] that is not disabled:
    the component hands the owner nothing else. *)
Theorem owner_sees_only_enabled_values :
  forall (W : Type) (D : CaseData) (P : SelectFieldProps W) (tr : list Event)
         (c : Config W),
    exists vs : list string,
      snd (run D P tr c) = notifyAll P vs (snd c)
      /\ Forall (fun v => exists o, In o (options P)
                                    /\ disabled o <> Some true
                                    /\ value o = v) vs
      /\ (length vs <= length tr)%nat.
Proof.
  intros W D P tr. induction tr as [|e tr IH]; intros [s w].
  - exists []. simpl. auto.
  - rewrite run_cons.
    destruct (IH (step D P e (s, w))) as (vs & Hrun & Hall & Hlen).
    assert (Hstep : snd (step D P e (s, w))
                    = notifyAll P (calls (dispatch D P s e)) w)
      by (unfold step; simpl fst; apply performAll_calls).
    rewrite Hstep in Hrun.
    exists (calls (dispatch D P s e) ++ vs)%list.
    split; [|split].
    + simpl snd. rewrite Hrun. unfold notifyAll. now rewrite fold_left_app.
    + apply Forall_app. split; [|exact Hall].
      destruct (dispatch_calls (D := D) P s e) as [-> | (o & Hin & Hen & ->)];
        [constructor|].
      constructor; [eauto | constructor].
    + rewrite length_app.
      destruct (dispatch_calls (D := D) P s e) as [-> | (o & Hin & Hen & ->)];
        simpl; lia.
Qed.

(** On a control without search the search term is empty after every
    sequence of events from the initial state. *)
Theorem not_searchable_searchTerm_empty :
  forall (W : Type) (D : CaseData) (P : SelectFieldProps W) (tr : list Event) (w : W),
    searchable P = false ->
    searchTerm (fst (run D P tr (initialState, w))) = [].
Proof.
  intros W D P tr w Hs.
  assert (G : forall c : Config W,
             searchTerm (fst c) = [] -> searchTerm (fst (run D P tr c)) = []).
  { induction tr as [|e tr IH]; intros [s w0] Ht; [exact Ht|].
    rewrite run_cons. apply IH.
    now apply step_searchTerm_not_searchable. }
  now apply G.
Qed.

Lemma not_searchable_searchTerm_empty_witness :
  searchTerm
    (fst (run latinGreek (fruitProps false)
            [ButtonClick; SearchChange (U "ch"); RowMouseEnter 1; ButtonClick]
            (initialState, [])))
  = [].
Proof.
  apply (not_searchable_searchTerm_empty (list string) latinGreek (fruitProps false)).
  reflexivity.
Defined.
